(** * filial.py: the branch (filial) store

    A shallow embedding of [filial.py].  The module keeps a list of branch
    records in one JSON file and exports five functions: [add_filial],
    [del_filial], [get_filial], [get_filiais] and [get_filial_proxima].

    The JSON library and the file system are not part of the module; they are
    modelled at their interface, by what a call of theirs does:
    - the file is absent, or its content makes [json.load] raise
      [JSONDecodeError], or makes reading or decoding raise another
      exception (bytes that are no text, brackets nested deeper than the
      decoder follows, an integer with more digits than the interpreter
      converts), or is decoded, to a value; the state of the file says
      which, since the limits are those of the interpreter that runs the
      call;
    - [json.dump] raises [ValueError] on a value that holds an integer with
      more decimal digits than the interpreter converts (4300 unless it is
      told otherwise); the file, emptied when it was opened, is left with
      the beginning of the text, which is no JSON text; nesting that
      [json.load] followed, [json.dump] follows;
    - what [json.dump] wrote, [json.load] decodes, to the same value; the
      layout of the text (indentation, order of the bytes) is not modelled;
    - numbers in a document are integers, as the data model has them, and
      unbounded, as Python's (non-integer numbers are left out of the value
      type);
    - [open(path, 'w')] either succeeds or raises [PermissionError];
    - one caller at a time: nothing else touches the file during a call.

    The state carries a trace of the calls of [open]; no function reads it,
    it is there to say which accesses a call made. *)

From Stdlib Require Import ZArith List String Bool Lia.
Import ListNotations.
Local Open Scope Z_scope.
Local Open Scope string_scope.
Local Open Scope list_scope.

(** ** Values of the JSON library *)

(** What [json.load] returns: [None], [bool], [int], [str], [list], or a
    [dict] with string keys (kept in insertion order). *)
#[warnings="-register-all"]
Inductive json : Type :=
| JNull
| JBool (b : bool)
| JInt (z : Z)
| JStr (s : string)
| JArr (l : list json)
| JObj (kv : list (string * json)).

(** Dictionary lookup by key. *)
Fixpoint assoc (k : string) (kv : list (string * json)) : option json :=
  match kv with
  | [] => None
  | (k', v) :: rest => if String.eqb k' k then Some v else assoc k rest
  end.

(** Python's [==] on these values.  [bool] is a subclass of [int], so
    [True == 1]; lists compare element-wise; dictionaries compare as maps,
    whatever the order of their keys. *)
Fixpoint py_eq (a b : json) {struct a} : bool :=
  match a, b with
  | JNull, JNull => true
  | JBool x, JBool y => Bool.eqb x y
  | JBool x, JInt y => Z.eqb (Z.b2z x) y
  | JInt x, JBool y => Z.eqb x (Z.b2z y)
  | JInt x, JInt y => Z.eqb x y
  | JStr x, JStr y => String.eqb x y
  | JArr l, JArr m =>
      (fix go (l m : list json) {struct l} : bool :=
         match l, m with
         | [], [] => true
         | x :: l', y :: m' => py_eq x y && go l' m'
         | _, _ => false
         end) l m
  | JObj l, JObj m =>
      Nat.eqb (List.length l) (List.length m) &&
      (fix go (l : list (string * json)) {struct l} : bool :=
         match l with
         | [] => true
         | (k, v) :: l' =>
             match assoc k m with
             | Some w => py_eq v w
             | None => false
             end && go l'
         end) l
  | _, _ => false
  end.

(** Python's truth value of an object. *)
Definition truthy (v : json) : bool :=
  match v with
  | JNull => false
  | JBool b => b
  | JInt z => negb (Z.eqb z 0)
  | JStr s => negb (String.eqb s EmptyString)
  | JArr l => match l with [] => false | _ => true end
  | JObj kv => match kv with [] => false | _ => true end
  end.

(** [z] has at most [m] decimal digits, the limit of the conversions
    between [int] and [str]; a limit of 0 (or less) stands for none. *)
Definition short (m z : Z) : bool :=
  Z.leb m 0 || Z.ltb (Z.abs z) (10 ^ m).

(** Every integer of the value is within the limit of [m] digits: what
    [json.dump] needs to write it. *)
Fixpoint encodable (m : Z) (v : json) {struct v} : bool :=
  match v with
  | JInt z => short m z
  | JArr l =>
      (fix go (l : list json) {struct l} : bool :=
         match l with
         | [] => true
         | x :: l' => encodable m x && go l'
         end) l
  | JObj kv =>
      (fix go (kv : list (string * json)) {struct kv} : bool :=
         match kv with
         | [] => true
         | (_, x) :: kv' => encodable m x && go kv'
         end) kv
  | _ => true
  end.
Arguments encodable m v : simpl never.

(** ** Exceptions *)

Inductive exn : Type :=
| FileNotFoundError
| JSONDecodeError
| PermissionError
| TypeError
| KeyError
| AttributeError
| ValueError
| UnicodeDecodeError
| RecursionError.

Inductive result (A : Type) : Type :=
| Ok (a : A)
| Raise (e : exn).
Arguments Ok {A} a.
Arguments Raise {A} e.

(** [x[key]] with a string key. *)
Definition subscript (x : json) (key : string) : result json :=
  match x with
  | JObj kv => match assoc key kv with
               | Some v => Ok v
               | None => Raise KeyError
               end
  | _ => Raise TypeError
  end.

(** The characters of a string, each as a string of its own. *)
Fixpoint chars (s : string) : list json :=
  match s with
  | EmptyString => []
  | String c rest => JStr (String c EmptyString) :: chars rest
  end.

(** [iter(x)]: what a [for] loop or a generator goes through. *)
Definition py_iter (x : json) : result (list json) :=
  match x with
  | JArr l => Ok l
  | JObj kv => Ok (map (fun p => JStr (fst p)) kv)
  | JStr s => Ok (chars s)
  | _ => Raise TypeError
  end.

(** [x.append(v)]: only lists have the method. *)
Definition py_append (x v : json) : result json :=
  match x with
  | JArr l => Ok (JArr (l ++ [v]))
  | _ => Raise AttributeError
  end.

(** ** The file system and the state monad *)

(** What stops the reading or the decoding of a file, a syntax error
    apart: its bytes are no text in the encoding of the locale
    ([UnicodeDecodeError], from the read), its brackets are nested deeper
    than the decoder follows ([RecursionError]), one of its integers has
    more digits than the interpreter converts ([ValueError]). *)
Inductive obstacle : Type :=
| NotText
| TooDeep
| IntTooLong.

Definition raised (o : obstacle) : exn :=
  match o with
  | NotText => UnicodeDecodeError
  | TooDeep => RecursionError
  | IntTooLong => ValueError
  end.

(** The content of the file, by what [json.load] does with it:
    - [Malformed]: no JSON text, and the decoder says so
      ([JSONDecodeError]);
    - [Undecodable o v]: reading or decoding fails on the obstacle [o];
      [v] is the value the content is the JSON text of, when it is one
      ([Some v]: valid JSON beyond a limit; [None]: no JSON text);
    - [Document v]: a JSON text that [json.load] decodes, to [v]. *)
Inductive text : Type :=
| Malformed
| Undecodable (o : obstacle) (v : option json)
| Document (v : json).

(** The content is a JSON text. *)
Definition valid_json (t : text) : bool :=
  match t with
  | Malformed => false
  | Undecodable _ v => match v with Some _ => true | None => false end
  | Document _ => true
  end.

(** One entry of the trace per call of [open], by its mode. *)
Inductive access : Type :=
| OpenRead
| OpenWrite.

(** [file]: [None] when the path does not exist.  [writable]: whether
    opening the path for writing succeeds.  [trace]: the calls of [open]
    made so far, oldest first; nothing reads it, it records what happened.
    [max_digits]: the longest integer, in decimal digits, that the
    interpreter converts to text (0: any length). *)
Record fs : Type := mkFs {
  file : option text;
  writable : bool;
  trace : list access;
  max_digits : Z
}.

Definition log (a : access) (s : fs) : fs :=
  mkFs (file s) (writable s) (trace s ++ [a]) (max_digits s).

Definition M (A : Type) : Type := fs -> result A * fs.

Definition ret {A} (a : A) : M A := fun s => (Ok a, s).

Definition raise {A} (e : exn) : M A := fun s => (Raise e, s).

Definition bind {A B} (m : M A) (k : A -> M B) : M B :=
  fun s => match m s with
           | (Ok a, s') => k a s'
           | (Raise e, s') => (Raise e, s')
           end.

Definition lift {A} (r : result A) : M A := fun s => (r, s).

Notation "x <- m ;; k" := (bind m (fun x => k))
  (at level 61, m at next level, right associativity).
Notation "m ;;; k" := (bind m (fun _ => k))
  (at level 61, right associativity).

(** [try: body except ...: handler]: every exception is turned into a
    value; the effects the body had before it raised stay. *)
Definition try_except {A} (body : M A) (handler : exn -> A) : fs -> A * fs :=
  fun s => match body s with
           | (Ok a, s') => (a, s')
           | (Raise e, s') => (handler e, s')
           end.

(** [open(path, 'r')], and the text read from the file. *)
Definition open_r : M text :=
  fun s => match file s with
           | None => (Raise FileNotFoundError, log OpenRead s)
           | Some t => (Ok t, log OpenRead s)
           end.

(** [json.load(file)] on the content read. *)
Definition json_load (t : text) : result json :=
  match t with
  | Malformed => Raise JSONDecodeError
  | Undecodable o _ => Raise (raised o)
  | Document v => Ok v
  end.

(** [open(path, 'w')]: fails, or leaves an empty file, which is no JSON
    text. *)
Definition open_w : M unit :=
  fun s => if writable s
           then (Ok tt, mkFs (Some Malformed) (writable s)
                          (trace s ++ [OpenWrite]) (max_digits s))
           else (Raise PermissionError, log OpenWrite s).

(** [json.dump(v, file, indent=4)] on the file just opened: the text of
    [v], or its beginning up to the integer that cannot be converted. *)
Definition json_dump (v : json) : M unit :=
  fun s => if encodable (max_digits s) v
           then (Ok tt, mkFs (Some (Document v)) (writable s) (trace s)
                          (max_digits s))
           else (Raise ValueError,
                 mkFs (Some Malformed) (writable s) (trace s) (max_digits s)).

(** ** Status codes *)

Definition OPERACAO_REALIZADA_COM_SUCESSO : Z := 0.
Definition ARQUIVO_NAO_ENCONTRADO : Z := 30.
Definition ARQUIVO_EM_FORMATO_INVALIDO : Z := 31.
Definition ERRO_NA_ESCRITA_DO_ARQUIVO : Z := 32.
Definition FILIAL_NAO_ENCONTRADA : Z := 33.
Definition ERRO_DESCONHECIDO : Z := 34.
Definition BAIRRO_NAO_ENCONTRADO : Z := 35.

(** The three [except] clauses every file operation ends with, tried in
    order: [FileNotFoundError], [json.JSONDecodeError], [Exception]. *)
Definition except_clauses {A} (not_found invalid unknown : A) (e : exn) : A :=
  match e with
  | FileNotFoundError => not_found
  | JSONDecodeError => invalid
  | _ => unknown
  end.

(** ** add_filial *)

(** [any(f['id'] == id for f in filiais)], over the elements of [filiais]:
    stops at the first hit, and raises where a subscript raises. *)
Fixpoint any_id (id : Z) (elems : list json) : result bool :=
  match elems with
  | [] => Ok false
  | f :: rest =>
      match subscript f "id" with
      | Raise e => Raise e
      | Ok v => if py_eq v (JInt id) then Ok true else any_id id rest
      end
  end.

Definition new_filial (id : Z) (nome bairro : string) : json :=
  JObj [("id", JInt id); ("nome", JStr nome); ("bairro", JStr bairro)].

Definition add_filial (id : Z) (nome bairro : string) : fs -> Z * fs :=
  try_except
    (t <- open_r ;;
     filiais <- lift (json_load t) ;;
     elems <- lift (py_iter filiais) ;;
     dup <- lift (any_id id elems) ;;
     if dup : bool then ret ERRO_DESCONHECIDO
     else
       filiais' <- lift (py_append filiais (new_filial id nome bairro)) ;;
       open_w ;;;
       json_dump filiais' ;;;
       ret OPERACAO_REALIZADA_COM_SUCESSO)
    (except_clauses ARQUIVO_NAO_ENCONTRADO ARQUIVO_EM_FORMATO_INVALIDO
       ERRO_DESCONHECIDO).

(** ** del_filial *)

(** [l.remove(filial)], where [filial] is the object at position [i] of
    [l]: the first element that is [filial] itself or equal to it goes;
    [ValueError] when there is none. *)
Fixpoint remove_first (filial : json) (i : nat) (l : list json)
  : result (list json) :=
  match l with
  | [] => Raise ValueError
  | x :: rest =>
      match i with
      | O => Ok rest
      | S i' =>
          if py_eq x filial then Ok rest
          else match remove_first filial i' rest with
               | Ok rest' => Ok (x :: rest')
               | Raise e => Raise e
               end
      end
  end.

(** [filiais.remove(filial)]: only lists have the method. *)
Definition py_remove (filiais : json) (i : nat) (filial : json) : result json :=
  match filiais with
  | JArr l => match remove_first filial i l with
              | Ok l' => Ok (JArr l')
              | Raise e => Raise e
              end
  | _ => Raise AttributeError
  end.

(** The [for filial in filiais] loop of [del_filial], from position [i] on:
    [Some] of the list after the removal when a record matched ([break]),
    [None] when the loop ran to its end ([filial_encontrada] still false). *)
Fixpoint del_loop (id_filial : Z) (filiais : json) (i : nat)
    (elems : list json) : result (option json) :=
  match elems with
  | [] => Ok None
  | filial :: rest =>
      match subscript filial "id" with
      | Raise e => Raise e
      | Ok v =>
          if py_eq v (JInt id_filial)
          then match py_remove filiais i filial with
               | Ok filiais' => Ok (Some filiais')
               | Raise e => Raise e
               end
          else del_loop id_filial filiais (S i) rest
      end
  end.

Definition del_filial (id_filial : Z) : fs -> Z * fs :=
  try_except
    (t <- open_r ;;
     filiais <- lift (json_load t) ;;
     elems <- lift (py_iter filiais) ;;
     found <- lift (del_loop id_filial filiais 0 elems) ;;
     match found with
     | None => ret ERRO_DESCONHECIDO
     | Some filiais' =>
         open_w ;;;
         json_dump filiais' ;;;
         ret OPERACAO_REALIZADA_COM_SUCESSO
     end)
    (except_clauses ARQUIVO_NAO_ENCONTRADO ARQUIVO_EM_FORMATO_INVALIDO
       ERRO_DESCONHECIDO).

(** ** get_filial *)

(** [next((f for f in filiais if f['id'] == id), None)]. *)
Fixpoint next_id (id : Z) (elems : list json) : result (option json) :=
  match elems with
  | [] => Ok None
  | f :: rest =>
      match subscript f "id" with
      | Raise e => Raise e
      | Ok v => if py_eq v (JInt id) then Ok (Some f) else next_id id rest
      end
  end.

(** [{'nome': f['nome'], 'bairro': f['bairro']}]. *)
Definition sem_id (f : json) : result json :=
  match subscript f "nome" with
  | Raise e => Raise e
  | Ok nome =>
      match subscript f "bairro" with
      | Raise e => Raise e
      | Ok bairro => Ok (JObj [("nome", nome); ("bairro", bairro)])
      end
  end.

Definition get_filial (id : Z) : fs -> (Z * option json) * fs :=
  try_except
    (t <- open_r ;;
     filiais <- lift (json_load t) ;;
     elems <- lift (py_iter filiais) ;;
     filial <- lift (next_id id elems) ;;
     match filial with
     | Some f =>
         if truthy f
         then d <- lift (sem_id f) ;;
              ret (OPERACAO_REALIZADA_COM_SUCESSO, Some d)
         else ret (FILIAL_NAO_ENCONTRADA, None)
     | None => ret (FILIAL_NAO_ENCONTRADA, None)
     end)
    (except_clauses (ARQUIVO_NAO_ENCONTRADO, None)
       (ARQUIVO_EM_FORMATO_INVALIDO, None) (ERRO_DESCONHECIDO, None)).

(** ** get_filiais *)

(** [[{'nome': f['nome'], 'bairro': f['bairro']} for f in filiais]]. *)
Fixpoint todas (elems : list json) : result (list json) :=
  match elems with
  | [] => Ok []
  | f :: rest =>
      match sem_id f with
      | Raise e => Raise e
      | Ok d => match todas rest with
                | Raise e => Raise e
                | Ok ds => Ok (d :: ds)
                end
      end
  end.

Definition get_filiais : fs -> (Z * list json) * fs :=
  try_except
    (t <- open_r ;;
     filiais <- lift (json_load t) ;;
     elems <- lift (py_iter filiais) ;;
     ds <- lift (todas elems) ;;
     ret (OPERACAO_REALIZADA_COM_SUCESSO, ds))
    (except_clauses (ARQUIVO_NAO_ENCONTRADO, [])
       (ARQUIVO_EM_FORMATO_INVALIDO, []) (ERRO_DESCONHECIDO, [])).

(** ** get_filial_proxima *)

Definition filial_mais_proxima : list (string * Z) :=
  [ ("Tijuca", 1);
    ("Ipanema", 2);
    ("Andarai", 1);
    ("Leblon", 2);
    ("Grajau", 1);
    ("Gavea", 2);
    ("Vila Isabel", 1) ].

(** The [for ... else] over the table: the first pair whose name is
    [bairro] returns; the [else] branch runs when the loop ends. *)
Fixpoint proxima_loop (bairro : string) (tabela : list (string * Z))
  : Z * option Z :=
  match tabela with
  | [] => (BAIRRO_NAO_ENCONTRADO, None)
  | bairro_tuple :: rest =>
      if String.eqb (fst bairro_tuple) bairro
      then (OPERACAO_REALIZADA_COM_SUCESSO, Some (snd bairro_tuple))
      else proxima_loop bairro rest
  end.

Definition get_filial_proxima (bairro : string) : Z * option Z :=
  proxima_loop bairro filial_mais_proxima.

(** ** The exported interface *)

(** The five functions of [__all__], as one family of calls.  [call] gives
    what a call returns (its status, and what comes with the status) and the
    file system it leaves. *)
Inductive operation : Type :=
| Create (id : Z) (nome bairro : string)
| Delete (id_filial : Z)
| Get (id : Z)
| ListAll
| Nearest (bairro : string).

Inductive payload : Type :=
| Nothing
| OneFilial (d : option json)
| AllFiliais (ds : list json)
| FilialId (i : option Z).

Definition call (o : operation) (s : fs) : (Z * payload) * fs :=
  match o with
  | Create id nome bairro =>
      let (st, s') := add_filial id nome bairro s in ((st, Nothing), s')
  | Delete id_filial =>
      let (st, s') := del_filial id_filial s in ((st, Nothing), s')
  | Get id =>
      let (r, s') := get_filial id s in ((fst r, OneFilial (snd r)), s')
  | ListAll =>
      let (r, s') := get_filiais s in ((fst r, AllFiliais (snd r)), s')
  | Nearest bairro =>
      let r := get_filial_proxima bairro in ((fst r, FilialId (snd r)), s)
  end.

Definition status (o : operation) (s : fs) : Z := fst (fst (call o s)).


(** ** The data model: branch records *)

Record filial : Type := mkFilial {
  filial_id : Z;
  filial_nome : string;
  filial_bairro : string
}.

(** A record as the file holds it. *)
Definition to_json (r : filial) : json :=
  new_filial (filial_id r) (filial_nome r) (filial_bairro r).

(** A record as [get_filial] and [get_filiais] hand it out. *)
Definition to_view (r : filial) : json :=
  JObj [("nome", JStr (filial_nome r)); ("bairro", JStr (filial_bairro r))].

(** The file of a store: a content that [json.load] decodes, to the array
    of the records, in order, each with its keys as [add_filial] writes
    them. *)
Definition store_file (store : list filial) : text :=
  Document (JArr (map to_json store)).

Definition ids (store : list filial) : list Z := map filial_id store.

(** The file system after the file was opened for writing and given the
    text [t]. *)
Definition overwritten (t : text) (s : fs) : fs :=
  mkFs (Some t) (writable s) (trace s ++ [OpenWrite]) (max_digits s).

(** The limit of an interpreter that was not told another. *)
Definition default_max_digits : Z := 4300.

(** A file system whose file holds [store], before any call. *)
Definition disk (store : list filial) (w : bool) : fs :=
  mkFs (Some (store_file store)) w [] default_max_digits.


Definition holding (t : text) (w : bool) : fs :=
  mkFs (Some t) w [] default_max_digits.

(** The ids of the store are within the limit of [m] digits. *)
Definition ids_fit (m : Z) (store : list filial) : bool :=
  forallb (fun r => short m (filial_id r)) store.

(** The store without its first record of the given id, if it has one. *)
Fixpoint drop_first (id : Z) (store : list filial) : option (list filial) :=
  match store with
  | [] => None
  | r :: rest =>
      if Z.eqb (filial_id r) id then Some rest
      else option_map (cons r) (drop_first id rest)
  end.

(** ** Elements of an arbitrary array *)

(** [f['id'] == id] evaluates to true: [f] is an object, it has the key,
    and the value equals [id]. *)
Definition has_id (id : Z) (f : json) : bool :=
  match subscript f "id" with
  | Ok v => py_eq v (JInt id)
  | Raise _ => false
  end.

(** [f['id'] == id] evaluates to false: [f] is an object, it has the key,
    and the value differs from [id]. *)
Definition other_id (id : Z) (f : json) : bool :=
  match subscript f "id" with
  | Ok v => negb (py_eq v (JInt id))
  | Raise _ => false
  end.

(** [{'nome': f['nome'], 'bairro': f['bairro']}] evaluates: [f] is an
    object with both keys. *)
Definition has_fields (f : json) : bool :=
  match sem_id f with
  | Ok _ => true
  | Raise _ => false
  end.

(** What [get_filiais] hands out for the element [f]. *)
Definition view (f : json) : json :=
  match sem_id f with
  | Ok d => d
  | Raise _ => JNull
  end.


(** * Properties *)

(** Runs a call: the monad and the file primitives unfolded, then
    computed as far as the store allows. *)
Ltac run :=
  unfold add_filial, del_filial, get_filial, get_filiais, try_except, bind,
    lift, ret, open_r, open_w, json_dump, json_load, raised, overwritten,
    log, disk, store_file;
  simpl.

(** Case analysis on what a [match] of the goal inspects, innermost
    first. *)
Ltac split_cases :=
  repeat match goal with
         | |- context [match ?x with _ => _ end] =>
             lazymatch x with
             | context [match _ with _ => _ end] => fail
             | _ => destruct x; simpl
             end
         end.

(** Runs a call on any file system, along every path of the function. *)
Ltac run_all :=
  unfold add_filial, del_filial, get_filial, get_filiais, try_except, bind,
    lift, ret, open_r, open_w, json_dump, json_load, raised, except_clauses,
    log;
  simpl; split_cases.

(** ** Records as JSON values *)

Lemma subscript_id (r : filial) :
  subscript (to_json r) "id" = Ok (JInt (filial_id r)).
Proof. reflexivity. Qed.

Lemma sem_id_to_json (r : filial) : sem_id (to_json r) = Ok (to_view r).
Proof. reflexivity. Qed.

Lemma truthy_to_json (r : filial) : truthy (to_json r) = true.
Proof. reflexivity. Qed.

Lemma py_eq_to_json (a b : filial) :
  py_eq (to_json a) (to_json b) = true -> filial_id a = filial_id b.
Proof.
  destruct a as [ia na ba], b as [ib nb bb]; cbn.
  intros H. apply andb_prop in H as [H _]. now apply Z.eqb_eq.
Qed.

(** ** What [json.dump] can write *)

Lemma encodable_arr (m : Z) (l : list json) :
  encodable m (JArr l) = forallb (encodable m) l.
Proof.
  induction l as [|x l IH]; [reflexivity|].
  cbn [forallb]. rewrite <- IH. reflexivity.
Qed.

Lemma encodable_app (m : Z) (l1 l2 : list json) :
  encodable m (JArr (l1 ++ l2))
  = encodable m (JArr l1) && encodable m (JArr l2).
Proof. rewrite !encodable_arr. apply forallb_app. Qed.

Lemma encodable_new_filial (m id : Z) (n b : string) :
  encodable m (new_filial id n b) = short m id.
Proof.
  cbv beta iota delta [encodable new_filial]. cbn [andb].
  apply andb_true_r.
Qed.

Lemma encodable_store (m : Z) (store : list filial) :
  encodable m (JArr (map to_json store)) = ids_fit m store.
Proof.
  rewrite encodable_arr. unfold ids_fit.
  induction store as [|r store IH]; [reflexivity|].
  cbn [map forallb]. rewrite IH. unfold to_json.
  now rewrite encodable_new_filial.
Qed.


(** An integer of more digits than the limit is not short. *)
Lemma short_pow (m k : Z) : 0 < m <= k -> short m (10 ^ k) = false.
Proof.
  intros H. unfold short. apply orb_false_intro.
  - apply Z.leb_gt. lia.
  - apply Z.ltb_ge. rewrite Z.abs_eq by (apply Z.pow_nonneg; lia).
    apply Z.pow_le_mono_r; lia.
Qed.

(** [10 ^ 5000], the least integer of 5001 digits, is beyond the limit of
    4300 (and is not 1). *)
Lemma five_thousand_digits :
  short 4300 (10 ^ 5000) = false /\ 1 < 10 ^ 5000.
Proof.
  split.
  - apply short_pow. split; [reflexivity|discriminate].
  - apply Z.pow_gt_1; reflexivity.
Qed.

(** ** The scans over a store *)

Lemma any_id_absent (id : Z) (store : list filial) :
  ~ In id (ids store) -> any_id id (map to_json store) = Ok false.
Proof.
  induction store as [|r rest IH]; intros Hn; [reflexivity|].
  cbn [map any_id]. rewrite subscript_id. cbn [py_eq].
  destruct (Z.eqb_spec (filial_id r) id) as [E|E].
  - exfalso. apply Hn. now left.
  - apply IH. intros Hin. apply Hn. now right.
Qed.

Lemma any_id_present (id : Z) (store : list filial) :
  In id (ids store) -> any_id id (map to_json store) = Ok true.
Proof.
  induction store as [|r rest IH]; intros Hin; [destruct Hin|].
  cbn [map any_id]. rewrite subscript_id. cbn [py_eq].
  destruct (Z.eqb_spec (filial_id r) id) as [E|E]; [reflexivity|].
  apply IH. destruct Hin as [H|H]; [contradiction|exact H].
Qed.

Lemma next_id_find (id : Z) (store : list filial) :
  next_id id (map to_json store)
  = Ok (option_map to_json (find (fun r => Z.eqb (filial_id r) id) store)).
Proof.
  induction store as [|r rest IH]; [reflexivity|].
  cbn [map next_id find]. rewrite subscript_id. cbn [py_eq].
  destruct (Z.eqb (filial_id r) id); [reflexivity|exact IH].
Qed.

Lemma find_absent (id : Z) (store : list filial) :
  ~ In id (ids store) -> find (fun r => Z.eqb (filial_id r) id) store = None.
Proof.
  induction store as [|r rest IH]; intros Hn; [reflexivity|].
  cbn [find]. destruct (Z.eqb_spec (filial_id r) id) as [E|E].
  - exfalso. apply Hn. now left.
  - apply IH. intros Hin. apply Hn. now right.
Qed.


Lemma todas_store (store : list filial) :
  todas (map to_json store) = Ok (map to_view store).
Proof.
  induction store as [|r rest IH]; [reflexivity|].
  cbn [map todas]. rewrite sem_id_to_json, IH. reflexivity.
Qed.

(** ** Removal *)

Lemma remove_first_at (seen : list filial) (r : filial) (rest : list filial) :
  Forall (fun x => filial_id x <> filial_id r) seen ->
  remove_first (to_json r) (List.length seen)
    (map to_json (seen ++ r :: rest))
  = Ok (map to_json (seen ++ rest)).
Proof.
  induction seen as [|x seen IH]; intros Hs; [reflexivity|].
  inversion Hs as [|? ? Hx Hrest]; subst.
  cbn [List.length app map remove_first].
  destruct (py_eq (to_json x) (to_json r)) eqn:E.
  - apply py_eq_to_json in E. contradiction.
  - now rewrite (IH Hrest).
Qed.

Lemma del_loop_store (id : Z) (rest seen : list filial) :
  Forall (fun x => filial_id x <> id) seen ->
  del_loop id (JArr (map to_json (seen ++ rest))) (List.length seen)
    (map to_json rest)
  = Ok (option_map (fun l => JArr (map to_json (seen ++ l)))
          (drop_first id rest)).
Proof.
  revert seen. induction rest as [|r rest IH]; intros seen Hs; [reflexivity|].
  cbn [map del_loop drop_first]. rewrite subscript_id. cbn [py_eq].
  destruct (Z.eqb_spec (filial_id r) id) as [E|E].
  - unfold py_remove. rewrite remove_first_at; [reflexivity|].
    now rewrite E.
  - assert (Hs' : Forall (fun x => filial_id x <> id) (seen ++ [r])).
    { apply Forall_app. split; [exact Hs|]. now constructor. }
    specialize (IH (seen ++ [r]) Hs').
    rewrite <- app_assoc in IH. cbn [app] in IH.
    rewrite length_app in IH. cbn [List.length] in IH.
    rewrite Nat.add_1_r in IH. rewrite IH.
    destruct (drop_first id rest) as [l|]; cbn [option_map]; [|reflexivity].
    now rewrite <- app_assoc.
Qed.

Lemma drop_first_absent (id : Z) (store : list filial) :
  ~ In id (ids store) -> drop_first id store = None.
Proof.
  induction store as [|r rest IH]; intros Hn; [reflexivity|].
  cbn [drop_first]. destruct (Z.eqb_spec (filial_id r) id) as [E|E].
  - exfalso. apply Hn. now left.
  - rewrite IH; [reflexivity|]. intros Hin. apply Hn. now right.
Qed.

Lemma drop_first_present (id : Z) (store : list filial) :
  In id (ids store) -> exists store', drop_first id store = Some store'.
Proof.
  induction store as [|r rest IH]; intros Hin; [destruct Hin|].
  cbn [drop_first]. destruct (Z.eqb_spec (filial_id r) id) as [E|E].
  - now exists rest.
  - destruct Hin as [H|H]; [contradiction|].
    destruct (IH H) as [l Hl]. rewrite Hl. now exists (r :: l).
Qed.

(** [drop_first] takes out one record, the first of that id. *)
Lemma drop_first_split (id : Z) (store store' : list filial) :
  drop_first id store = Some store' ->
  exists seen r rest,
    store = seen ++ r :: rest /\ store' = seen ++ rest /\
    filial_id r = id /\ ~ In id (ids seen).
Proof.
  revert store'. induction store as [|x xs IH]; intros store' H; [discriminate|].
  cbn [drop_first] in H. destruct (Z.eqb_spec (filial_id x) id) as [E|E].
  - injection H as <-. exists [], x, xs. repeat split; auto.
  - destruct (drop_first id xs) as [l|]; [|discriminate].
    injection H as <-.
    destruct (IH l eq_refl) as (seen & r & rest & -> & -> & Hr & Hn).
    exists (x :: seen), r, rest. repeat split; auto.
    intros [Hx|Hin]; [contradiction|]. now apply Hn.
Qed.

Lemma drop_first_gone (id : Z) (store store' : list filial) :
  NoDup (ids store) -> drop_first id store = Some store' ->
  ~ In id (ids store').
Proof.
  intros Hnd H.
  destruct (drop_first_split _ _ _ H) as (seen & r & rest & -> & -> & Hr & Hn).
  unfold ids in *. rewrite map_app in *. cbn [map] in Hnd.
  apply NoDup_remove_2 in Hnd. now rewrite Hr in Hnd.
Qed.

(** ** The table of [get_filial_proxima] *)

Lemma proxima_loop_none (bairro : string) (tabela : list (string * Z)) :
  ~ In bairro (map fst tabela) ->
  proxima_loop bairro tabela = (BAIRRO_NAO_ENCONTRADO, None).
Proof.
  induction tabela as [|p rest IH]; intros Hn; [reflexivity|].
  cbn [proxima_loop]. destruct (String.eqb_spec (fst p) bairro) as [E|E].
  - exfalso. apply Hn. now left.
  - apply IH. intros Hin. apply Hn. now right.
Qed.

(** The loop returns at the first pair of that name. *)
Lemma proxima_loop_first (bairro : string) (tabela : list (string * Z)) :
  proxima_loop bairro tabela
  = match find (fun p => String.eqb (fst p) bairro) tabela with
    | Some p => (OPERACAO_REALIZADA_COM_SUCESSO, Some (snd p))
    | None => (BAIRRO_NAO_ENCONTRADO, None)
    end.
Proof.
  induction tabela as [|p rest IH]; [reflexivity|].
  cbn [proxima_loop find]. now destruct (String.eqb (fst p) bairro).
Qed.


(** ** The operations on a file that holds a store *)

Lemma add_filial_new (store : list filial) (id : Z) (n b : string) (s : fs) :
  file s = Some (store_file store) -> ~ In id (ids store) ->
  add_filial id n b s
  = if writable s
    then if ids_fit (max_digits s) store && short (max_digits s) id
         then (OPERACAO_REALIZADA_COM_SUCESSO,
               overwritten (store_file (store ++ [mkFilial id n b]))
                 (log OpenRead s))
         else (ERRO_DESCONHECIDO, overwritten Malformed (log OpenRead s))
    else (ERRO_DESCONHECIDO, log OpenWrite (log OpenRead s)).
Proof.
  destruct s as [f w tr m]. cbn [file writable max_digits]. intros -> Hn.
  run. rewrite (any_id_absent _ _ Hn). simpl.
  destruct w; [|reflexivity]. simpl.
  rewrite encodable_app, encodable_store, encodable_arr. cbn [forallb].
  rewrite encodable_new_filial, andb_true_r.
  destruct (ids_fit m store && short m id); [|reflexivity].
  now rewrite map_app.
Qed.

Lemma del_filial_store (store : list filial) (id : Z) (s : fs) :
  file s = Some (store_file store) ->
  del_filial id s
  = match drop_first id store with
    | None => (ERRO_DESCONHECIDO, log OpenRead s)
    | Some store' =>
        if writable s
        then if ids_fit (max_digits s) store'
             then (OPERACAO_REALIZADA_COM_SUCESSO,
                   overwritten (store_file store') (log OpenRead s))
             else (ERRO_DESCONHECIDO,
                   overwritten Malformed (log OpenRead s))
        else (ERRO_DESCONHECIDO, log OpenWrite (log OpenRead s))
    end.
Proof.
  destruct s as [f w tr m]. cbn [file writable max_digits]. intros ->. run.
  pose proof (del_loop_store id store [] (Forall_nil _)) as H.
  cbn [app List.length] in H. rewrite H. clear H.
  destruct (drop_first id store) as [store'|]; cbn [option_map];
    [|reflexivity].
  destruct w; [|reflexivity]. simpl. rewrite encodable_store.
  now destruct (ids_fit m store').
Qed.


Lemma get_filial_store (store : list filial) (id : Z) (s : fs) :
  file s = Some (store_file store) ->
  get_filial id s
  = (match find (fun r => Z.eqb (filial_id r) id) store with
     | Some r => (OPERACAO_REALIZADA_COM_SUCESSO, Some (to_view r))
     | None => (FILIAL_NAO_ENCONTRADA, None)
     end, log OpenRead s).
Proof.
  destruct s as [f w tr m]. cbn [file]. intros ->. run.
  rewrite next_id_find.
  now destruct (find (fun r => Z.eqb (filial_id r) id) store).
Qed.

(** * The operations on a store *)




(** C2. Create with an id that a stored record already has returns the
    unknown-error status 34 (there is no status of its own for a duplicate
    id), and the file is left as it was: nothing is added, and the file is
    opened for reading only, never for writing. *)
Theorem create_duplicate (store : list filial) (id : Z) (n b : string)
    (s : fs) :
  file s = Some (store_file store) ->
  In id (ids store) ->
  add_filial id n b s = (ERRO_DESCONHECIDO, log OpenRead s)
  /\ file (snd (add_filial id n b s)) = file s
  /\ trace (snd (add_filial id n b s)) = trace s ++ [OpenRead].
Proof.
  destruct s as [f w tr m]. cbn [file]. intros -> Hin.
  run. rewrite (any_id_present _ _ Hin). repeat split.
Qed.

Lemma create_duplicate_witness :
  file (disk [mkFilial 1 "Centro" "Tijuca"] true)
  = Some (store_file [mkFilial 1 "Centro" "Tijuca"])
  /\ In 1 (ids [mkFilial 1 "Centro" "Tijuca"])
  /\ add_filial 1 "Sul" "Leblon" (disk [mkFilial 1 "Centro" "Tijuca"] true)
     = (34, log OpenRead (disk [mkFilial 1 "Centro" "Tijuca"] true))
  /\ file (snd (add_filial 1 "Sul" "Leblon"
                  (disk [mkFilial 1 "Centro" "Tijuca"] true)))
     = file (disk [mkFilial 1 "Centro" "Tijuca"] true)
  /\ trace (snd (add_filial 1 "Sul" "Leblon"
                   (disk [mkFilial 1 "Centro" "Tijuca"] true)))
     = trace (disk [mkFilial 1 "Centro" "Tijuca"] true) ++ [OpenRead].
Proof.
  assert (Hin : In 1 (ids [mkFilial 1 "Centro" "Tijuca"])).
  { simpl. now left. }
  split; [reflexivity|]. split; [exact Hin|].
  exact (create_duplicate [mkFilial 1 "Centro" "Tijuca"] 1 "Sul" "Leblon"
           (disk [mkFilial 1 "Centro" "Tijuca"] true) eq_refl Hin).
Defined.

(** C3. Delete of an id that no stored record has, with the file present and
    holding the JSON array of the store, returns the unknown-error status 34
    and leaves the file as it was: it is opened for reading only, never for
    writing. *)
Theorem delete_absent (store : list filial) (id : Z) (s : fs) :
  file s = Some (store_file store) ->
  ~ In id (ids store) ->
  del_filial id s = (ERRO_DESCONHECIDO, log OpenRead s)
  /\ file (snd (del_filial id s)) = file s
  /\ trace (snd (del_filial id s)) = trace s ++ [OpenRead].
Proof.
  intros Hf Hn. rewrite (del_filial_store store id s Hf).
  rewrite (drop_first_absent _ _ Hn). repeat split.
Qed.

Lemma delete_absent_witness :
  file (disk [mkFilial 1 "Centro" "Tijuca"] true)
  = Some (store_file [mkFilial 1 "Centro" "Tijuca"])
  /\ ~ In 7 (ids [mkFilial 1 "Centro" "Tijuca"])
  /\ del_filial 7 (disk [mkFilial 1 "Centro" "Tijuca"] true)
     = (34, log OpenRead (disk [mkFilial 1 "Centro" "Tijuca"] true))
  /\ file (snd (del_filial 7 (disk [mkFilial 1 "Centro" "Tijuca"] true)))
     = file (disk [mkFilial 1 "Centro" "Tijuca"] true)
  /\ trace (snd (del_filial 7 (disk [mkFilial 1 "Centro" "Tijuca"] true)))
     = trace (disk [mkFilial 1 "Centro" "Tijuca"] true) ++ [OpenRead].
Proof.
  assert (Hn : ~ In 7 (ids [mkFilial 1 "Centro" "Tijuca"])).
  { simpl. intros [H|[]]. discriminate H. }
  split; [reflexivity|]. split; [exact Hn|].
  exact (delete_absent [mkFilial 1 "Centro" "Tijuca"] 7
           (disk [mkFilial 1 "Centro" "Tijuca"] true) eq_refl Hn).
Defined.

(** C4. Delete then get: when the ids of the stored records are pairwise
    different and [del_filial id] returns the success status 0, the file it
    leaves holds the old store without its first (and only) record of that
    id, and [get_filial id] right after returns the branch-not-found status
    33 with no record. *)
Theorem delete_then_get (store : list filial) (id : Z) (s : fs) :
  file s = Some (store_file store) ->
  NoDup (ids store) ->
  fst (del_filial id s) = OPERACAO_REALIZADA_COM_SUCESSO ->
  (exists store',
      drop_first id store = Some store'
      /\ snd (del_filial id s)
         = overwritten (store_file store') (log OpenRead s))
  /\ fst (get_filial id (snd (del_filial id s)))
     = (FILIAL_NAO_ENCONTRADA, None).
Proof.
  intros Hf Hnd. rewrite (del_filial_store store id s Hf).
  destruct (drop_first id store) as [store'|] eqn:Hdrop;
    [|intros H; discriminate H].
  destruct (writable s); [|intros H; discriminate H].
  destruct (ids_fit (max_digits s) store'); [|intros H; discriminate H].
  intros _. cbn [snd]. split; [now exists store'|].
  rewrite (get_filial_store store' id); [|reflexivity].
  now rewrite (find_absent _ _ (drop_first_gone _ _ _ Hnd Hdrop)).
Qed.

Lemma delete_then_get_witness :
  NoDup (ids [mkFilial 1 "Centro" "Tijuca"; mkFilial 2 "Sul" "Leblon"])
  /\ fst (del_filial 1 (disk [mkFilial 1 "Centro" "Tijuca";
                              mkFilial 2 "Sul" "Leblon"] true)) = 0
  /\ (exists store',
      drop_first 1 [mkFilial 1 "Centro" "Tijuca"; mkFilial 2 "Sul" "Leblon"]
      = Some store'
      /\ snd (del_filial 1 (disk [mkFilial 1 "Centro" "Tijuca";
                                  mkFilial 2 "Sul" "Leblon"] true))
         = overwritten (store_file store')
             (log OpenRead (disk [mkFilial 1 "Centro" "Tijuca";
                                  mkFilial 2 "Sul" "Leblon"] true)))
  /\ fst (get_filial 1
            (snd (del_filial 1 (disk [mkFilial 1 "Centro" "Tijuca";
                                      mkFilial 2 "Sul" "Leblon"] true))))
     = (33, None).
Proof.
  assert (Hnd : NoDup (ids [mkFilial 1 "Centro" "Tijuca";
                            mkFilial 2 "Sul" "Leblon"])).
  { simpl. constructor.
    - intros [H|[]]. discriminate H.
    - constructor; [intros []|constructor]. }
  split; [exact Hnd|]. split; [reflexivity|].
  exact (delete_then_get
           [mkFilial 1 "Centro" "Tijuca"; mkFilial 2 "Sul" "Leblon"] 1
           (disk [mkFilial 1 "Centro" "Tijuca"; mkFilial 2 "Sul" "Leblon"]
              true) eq_refl Hnd eq_refl).
Defined.

(** Without the proviso the get after a delete can still find a record: the
    delete takes out one record only. *)
Example duplicated_id_survives_delete :
  let s := disk [mkFilial 1 "Centro" "Tijuca"; mkFilial 1 "Norte" "Grajau"]
             true in
  fst (del_filial 1 s) = 0
  /\ file (snd (del_filial 1 s))
     = Some (store_file [mkFilial 1 "Norte" "Grajau"])
  /\ fst (get_filial 1 (snd (del_filial 1 s)))
     = (0, Some (JObj [("nome", JStr "Norte"); ("bairro", JStr "Grajau")])).
Proof. repeat split. Qed.

(** C6, as the spec has it, fails: a file that holds the JSON array of a
    store, valid JSON, whose one record has an id of 5001 digits is not
    decoded ([json.load] raises [ValueError]), and [get_filiais] returns
    the unknown-error status 34 with the empty list. *)
Lemma list_all_undecoded_store :
  valid_json
    (Undecodable IntTooLong
       (Some (JArr (map to_json [mkFilial (10 ^ 5000) "Centro" "Tijuca"]))))
  = true
  /\ fst (get_filiais
            (holding
               (Undecodable IntTooLong
                  (Some (JArr (map to_json
                                 [mkFilial (10 ^ 5000) "Centro" "Tijuca"]))))
               true))
     = (ERRO_DESCONHECIDO, []).
Proof. split; reflexivity. Qed.

(** C6, amended. For every store that [json.load] decodes from the file,
    [get_filiais] returns the success status 0 with the records of the
    store, all of them and in the order of the file, each as
    [{nome, bairro}] without its id; for a store whose JSON array is in the
    file but is not decoded (an integer too long, nesting too deep) it
    returns the unknown-error status 34 with the empty list.  The file is
    read and left as it was. *)
Theorem list_all_in_order (store : list filial) (s : fs) :
  (file s = Some (store_file store) ->
     get_filiais s
     = ((OPERACAO_REALIZADA_COM_SUCESSO, map to_view store), log OpenRead s))
  /\ (forall o,
        file s = Some (Undecodable o (Some (JArr (map to_json store)))) ->
        get_filiais s = ((ERRO_DESCONHECIDO, []), log OpenRead s)).
Proof.
  destruct s as [f w tr m]. cbn [file]. split.
  - intros ->. run. now rewrite todas_store.
  - intros o ->. run. now destruct o.
Qed.

Lemma list_all_in_order_witness :
  (file (disk [mkFilial 1 "Centro" "Tijuca"; mkFilial 2 "Sul" "Leblon"] true)
   = Some (store_file [mkFilial 1 "Centro" "Tijuca";
                       mkFilial 2 "Sul" "Leblon"])
   /\ get_filiais (disk [mkFilial 1 "Centro" "Tijuca";
                         mkFilial 2 "Sul" "Leblon"] true)
      = ((0, [JObj [("nome", JStr "Centro"); ("bairro", JStr "Tijuca")];
              JObj [("nome", JStr "Sul"); ("bairro", JStr "Leblon")]]),
         log OpenRead (disk [mkFilial 1 "Centro" "Tijuca";
                             mkFilial 2 "Sul" "Leblon"] true)))
  /\ (file (holding
              (Undecodable TooDeep
                 (Some (JArr (map to_json [mkFilial 1 "Centro" "Tijuca"]))))
              true)
      = Some (Undecodable TooDeep
                (Some (JArr (map to_json [mkFilial 1 "Centro" "Tijuca"]))))
      /\ get_filiais
           (holding
              (Undecodable TooDeep
                 (Some (JArr (map to_json [mkFilial 1 "Centro" "Tijuca"]))))
              true)
         = ((34, []),
            log OpenRead
              (holding
                 (Undecodable TooDeep
                    (Some (JArr (map to_json
                                   [mkFilial 1 "Centro" "Tijuca"]))))
                 true))).
Proof.
  split; (split; [reflexivity|]).
  - exact (proj1 (list_all_in_order
                    [mkFilial 1 "Centro" "Tijuca"; mkFilial 2 "Sul" "Leblon"]
                    (disk [mkFilial 1 "Centro" "Tijuca";
                           mkFilial 2 "Sul" "Leblon"] true)) eq_refl).
  - exact (proj2 (list_all_in_order [mkFilial 1 "Centro" "Tijuca"]
                    (holding
                       (Undecodable TooDeep
                          (Some (JArr (map to_json
                                         [mkFilial 1 "Centro" "Tijuca"]))))
                       true)) TooDeep eq_refl).
Defined.

(** * The table of neighbourhoods *)

(** C5. [get_filial_proxima] compares the neighbourhood, as a string and
    exactly, with the names of the fixed table Tijuca 1, Ipanema 2,
    Andarai 1, Leblon 2, Grajau 1, Gavea 2, Vila Isabel 1: a name of the
    table gives the success status with its branch id (that of the first
    pair of this name), and every string that is no name of the table, such
    as Copacabana, gives the neighbourhood-not-found status 35 and no id. *)
Theorem nearest_branch_table :
  filial_mais_proxima
  = [("Tijuca", 1); ("Ipanema", 2); ("Andarai", 1); ("Leblon", 2);
     ("Grajau", 1); ("Gavea", 2); ("Vila Isabel", 1)]
  /\ (forall bairro i, In (bairro, i) filial_mais_proxima ->
        get_filial_proxima bairro = (OPERACAO_REALIZADA_COM_SUCESSO, Some i))
  /\ (forall bairro,
        get_filial_proxima bairro
        = match find (fun p => String.eqb (fst p) bairro) filial_mais_proxima
          with
          | Some p => (OPERACAO_REALIZADA_COM_SUCESSO, Some (snd p))
          | None => (BAIRRO_NAO_ENCONTRADO, None)
          end)
  /\ (forall bairro, ~ In bairro (map fst filial_mais_proxima) ->
        get_filial_proxima bairro = (BAIRRO_NAO_ENCONTRADO, None))
  /\ get_filial_proxima "Ipanema" = (0, Some 2)
  /\ get_filial_proxima "Copacabana" = (35, None)
  /\ get_filial_proxima "ipanema" = (35, None).
Proof.
  split; [reflexivity|]. split.
  { intros bairro i Hin. simpl in Hin.
    repeat (destruct Hin as [Hin|Hin];
            [injection Hin as <- <-; reflexivity|]).
    destruct Hin. }
  split; [intros bairro; apply proxima_loop_first|].
  split; [intros bairro; apply proxima_loop_none|].
  repeat split.
Qed.

Lemma nearest_branch_table_witness :
  (In ("Vila Isabel", 1) filial_mais_proxima
   /\ get_filial_proxima "Vila Isabel" = (0, Some 1))
  /\ (~ In "Centro" (map fst filial_mais_proxima)
      /\ get_filial_proxima "Centro" = (35, None)).
Proof.
  assert (Hin : In ("Vila Isabel", 1) filial_mais_proxima).
  { simpl. do 6 right. now left. }
  assert (Hn : ~ In "Centro" (map fst filial_mais_proxima)).
  { simpl. intros H.
    repeat (destruct H as [H|H]; [discriminate H|]). destruct H. }
  split; (split; [assumption|]).
  - exact (proj1 (proj2 nearest_branch_table) "Vila Isabel" 1 Hin).
  - exact (proj1 (proj2 (proj2 (proj2 nearest_branch_table))) "Centro" Hn).
Defined.

(** C10. [get_filial_proxima] depends on its argument alone: a call makes
    no access to the file, neither to read nor to write, and leaves every
    file system as it found it; under any two file systems (file missing,
    malformed or any document, writable or not) the same argument gives the
    same status and the same branch id. *)
Theorem nearest_branch_pure (bairro : string) (s1 s2 : fs) :
  call (Nearest bairro) s1
  = ((fst (get_filial_proxima bairro),
      FilialId (snd (get_filial_proxima bairro))), s1)
  /\ trace (snd (call (Nearest bairro) s1)) = trace s1
  /\ fst (call (Nearest bairro) s1) = fst (call (Nearest bairro) s2).
Proof.
  repeat split.
Qed.

(** * Failures *)




(** Documents that [json.load] accepts but that are no array of records
    end in the last [except] clause: a JSON string (its characters have no
    key ["id"]), an empty object (it has no [append]), a record without an
    id. *)
Example document_string :
  fst (add_filial 1 "Centro" "Tijuca"
         (holding (Document (JStr "not json")) true))
  = ERRO_DESCONHECIDO
  /\ fst (get_filiais (holding (Document (JStr "not json")) true))
     = (ERRO_DESCONHECIDO, []).
Proof. split; reflexivity. Qed.

Example document_object :
  add_filial 1 "Centro" "Tijuca" (holding (Document (JObj [])) true)
  = (ERRO_DESCONHECIDO, log OpenRead (holding (Document (JObj [])) true)).
Proof. reflexivity. Qed.

Example document_without_id :
  fst (get_filial 1
         (holding (Document (JArr [JObj [("nome", JStr "Centro")]])) true))
  = (ERRO_DESCONHECIDO, None).
Proof. reflexivity. Qed.




(** ** The statuses an operation can return *)

Lemma add_filial_status (id : Z) (n b : string) (s : fs) :
  In (fst (add_filial id n b s)) [0; 30; 31; 34].
Proof. run_all; tauto. Qed.

Lemma del_filial_status (id : Z) (s : fs) :
  In (fst (del_filial id s)) [0; 30; 31; 34].
Proof. run_all; tauto. Qed.

Lemma get_filial_status (id : Z) (s : fs) :
  In (fst (fst (get_filial id s))) [0; 30; 31; 33; 34].
Proof. run_all; tauto. Qed.

Lemma get_filiais_status (s : fs) :
  In (fst (fst (get_filiais s))) [0; 30; 31; 34].
Proof. run_all; tauto. Qed.

Lemma get_filial_proxima_status (bairro : string) :
  In (fst (get_filial_proxima bairro)) [0; 35].
Proof.
  unfold get_filial_proxima. rewrite proxima_loop_first.
  destruct (find _ filial_mais_proxima); simpl; tauto.
Qed.

Lemma status_range (o : operation) (s : fs) :
  In (status o s) [0; 30; 31; 33; 34; 35].
Proof.
  unfold status, call. destruct o.
  - pose proof (add_filial_status id nome bairro s) as H.
    destruct (add_filial id nome bairro s); simpl in *; tauto.
  - pose proof (del_filial_status id_filial s) as H.
    destruct (del_filial id_filial s); simpl in *; tauto.
  - pose proof (get_filial_status id s) as H.
    destruct (get_filial id s); simpl in *; tauto.
  - pose proof (get_filiais_status s) as H.
    destruct (get_filiais s); simpl in *; tauto.
  - pose proof (get_filial_proxima_status bairro) as H.
    simpl in *; tauto.
Qed.

(** ** Failures to write *)

Lemma not_written (tr : list access) :
  ~ In OpenWrite tr -> ~ In OpenWrite (tr ++ [OpenRead]).
Proof.
  intros Hn Hin. apply in_app_or in Hin as [H|[H|[]]];
    [now apply Hn|discriminate H].
Qed.

(** A call that opens for writing a file that cannot be written returns
    the unknown-error status and leaves the content of the file. *)
Lemma write_failure (o : operation) (s : fs) :
  writable s = false ->
  ~ In OpenWrite (trace s) ->
  In OpenWrite (trace (snd (call o s))) ->
  status o s = ERRO_DESCONHECIDO /\ file (snd (call o s)) = file s.
Proof.
  destruct s as [f w tr m]. cbn [writable trace file]. intros -> Hn.
  pose proof (not_written tr Hn) as Hn'.
  unfold status, call. destruct o.
  - run_all; intros H; try (split; reflexivity); contradiction.
  - run_all; intros H; try (split; reflexivity); contradiction.
  - run_all; intros H; try (split; reflexivity); contradiction.
  - run_all; intros H; try (split; reflexivity); contradiction.
  - simpl. intros H. contradiction.
Qed.

(** C9. No operation returns the write-error status 32, whatever its
    arguments and whatever the state of the file: every status returned is
    one of 0, 30, 31, 33, 34 and 35.  A failure to write shows as the
    unknown-error status 34: a call that opens for writing a file that
    cannot be written returns 34, and this is what create (with a new id)
    and delete (with a stored id) do on such a file. *)
Theorem write_error_never_returned :
  (forall o s, status o s <> ERRO_NA_ESCRITA_DO_ARQUIVO)
  /\ (forall o s, In (status o s) [0; 30; 31; 33; 34; 35])
  /\ (forall o s,
        writable s = false ->
        ~ In OpenWrite (trace s) ->
        In OpenWrite (trace (snd (call o s))) ->
        status o s = ERRO_DESCONHECIDO)
  /\ (forall store id n b s,
        file s = Some (store_file store) -> writable s = false ->
        ~ In id (ids store) ->
        add_filial id n b s
        = (ERRO_DESCONHECIDO, log OpenWrite (log OpenRead s)))
  /\ (forall store id s,
        file s = Some (store_file store) -> writable s = false ->
        In id (ids store) ->
        del_filial id s
        = (ERRO_DESCONHECIDO, log OpenWrite (log OpenRead s))).
Proof.
  split; [|split; [exact status_range|split; [|split]]].
  - intros o s E. pose proof (status_range o s) as H. rewrite E in H.
    simpl in H. unfold ERRO_NA_ESCRITA_DO_ARQUIVO in H.
    repeat (destruct H as [H|H]; [discriminate H|]). exact H.
  - intros o s Hw Hn Hin. exact (proj1 (write_failure o s Hw Hn Hin)).
  - intros store id n b s Hf Hw Hn.
    now rewrite (add_filial_new store id n b s Hf Hn), Hw.
  - intros store id s Hf Hw Hin.
    rewrite (del_filial_store store id s Hf), Hw.
    now destruct (drop_first_present _ _ Hin) as [store' ->].
Qed.

Lemma write_error_never_returned_witness :
  (writable (disk [mkFilial 1 "Centro" "Tijuca"] false) = false
   /\ ~ In OpenWrite (trace (disk [mkFilial 1 "Centro" "Tijuca"] false))
   /\ In OpenWrite
        (trace (snd (call (Delete 1)
                       (disk [mkFilial 1 "Centro" "Tijuca"] false))))
   /\ status (Delete 1) (disk [mkFilial 1 "Centro" "Tijuca"] false) = 34)
  /\ (file (disk [mkFilial 1 "Centro" "Tijuca"] false)
      = Some (store_file [mkFilial 1 "Centro" "Tijuca"])
      /\ ~ In 2 (ids [mkFilial 1 "Centro" "Tijuca"])
      /\ add_filial 2 "Sul" "Leblon"
           (disk [mkFilial 1 "Centro" "Tijuca"] false)
         = (34, log OpenWrite
                  (log OpenRead (disk [mkFilial 1 "Centro" "Tijuca"] false))))
  /\ (In 1 (ids [mkFilial 1 "Centro" "Tijuca"])
      /\ del_filial 1 (disk [mkFilial 1 "Centro" "Tijuca"] false)
         = (34, log OpenWrite
                  (log OpenRead (disk [mkFilial 1 "Centro" "Tijuca"] false)))).
Proof.
  assert (Hn : ~ In 2 (ids [mkFilial 1 "Centro" "Tijuca"])).
  { simpl. intros [H|[]]. discriminate H. }
  assert (Hin : In 1 (ids [mkFilial 1 "Centro" "Tijuca"])).
  { simpl. now left. }
  assert (Ht : ~ In OpenWrite
                 (trace (disk [mkFilial 1 "Centro" "Tijuca"] false))).
  { simpl. intros []. }
  assert (Hw : In OpenWrite
                 (trace (snd (call (Delete 1)
                                (disk [mkFilial 1 "Centro" "Tijuca"] false))))).
  { simpl. right. now left. }
  split; [|split].
  - split; [reflexivity|]. split; [exact Ht|]. split; [exact Hw|].
    exact (proj1 (proj2 (proj2 write_error_never_returned))
             (Delete 1) (disk [mkFilial 1 "Centro" "Tijuca"] false)
             eq_refl Ht Hw).
  - split; [reflexivity|]. split; [exact Hn|].
    exact (proj1 (proj2 (proj2 (proj2 write_error_never_returned)))
             [mkFilial 1 "Centro" "Tijuca"] 2 "Sul" "Leblon"
             (disk [mkFilial 1 "Centro" "Tijuca"] false)
             eq_refl eq_refl Hn).
  - split; [exact Hin|].
    exact (proj2 (proj2 (proj2 (proj2 write_error_never_returned)))
             [mkFilial 1 "Centro" "Tijuca"] 1
             (disk [mkFilial 1 "Centro" "Tijuca"] false)
             eq_refl eq_refl Hin).
Defined.

(** * Arbitrary arrays *)

(** ** Python equality on objects *)



(** ** The scans over an arbitrary array *)

Lemma has_id_object (id : Z) (f : json) :
  has_id id f = true ->
  exists kv v, f = JObj kv /\ assoc "id" kv = Some v
               /\ py_eq v (JInt id) = true.
Proof.
  unfold has_id, subscript. destruct f as [| | | | |kv]; try discriminate.
  destruct (assoc "id" kv) as [v|] eqn:Ea; [|discriminate].
  intros H. now exists kv, v.
Qed.

Lemma other_id_object (id : Z) (f : json) :
  other_id id f = true ->
  exists kv v, f = JObj kv /\ assoc "id" kv = Some v
               /\ py_eq v (JInt id) = false.
Proof.
  unfold other_id, subscript. destruct f as [| | | | |kv]; try discriminate.
  destruct (assoc "id" kv) as [v|] eqn:Ea; [|discriminate].
  intros H. apply negb_true_iff in H. now exists kv, v.
Qed.


Lemma any_id_others (id : Z) (l : list json) :
  forallb (other_id id) l = true -> any_id id l = Ok false.
Proof.
  induction l as [|f rest IH]; [reflexivity|].
  cbn [forallb any_id]. intros H. apply andb_prop in H as [Hf Hrest].
  unfold other_id in Hf. destruct (subscript f "id") as [v|e]; [|discriminate].
  apply negb_true_iff in Hf. rewrite Hf. exact (IH Hrest).
Qed.

Lemma any_id_found (id : Z) (l1 l2 : list json) (x : json) :
  forallb (other_id id) l1 = true -> has_id id x = true ->
  any_id id (l1 ++ x :: l2) = Ok true.
Proof.
  intros H1 Hx. induction l1 as [|f rest IH]; cbn [app any_id].
  - unfold has_id in Hx. destruct (subscript x "id"); [|discriminate].
    now rewrite Hx.
  - cbn [forallb] in H1. apply andb_prop in H1 as [Hf Hrest].
    unfold other_id in Hf. destruct (subscript f "id"); [|discriminate].
    apply negb_true_iff in Hf. rewrite Hf. exact (IH Hrest).
Qed.


Lemma next_id_others (id : Z) (l : list json) :
  forallb (other_id id) l = true -> next_id id l = Ok None.
Proof.
  induction l as [|f rest IH]; [reflexivity|].
  cbn [forallb next_id]. intros H. apply andb_prop in H as [Hf Hrest].
  unfold other_id in Hf. destruct (subscript f "id") as [v|e]; [|discriminate].
  apply negb_true_iff in Hf. rewrite Hf. exact (IH Hrest).
Qed.

Lemma next_id_found (id : Z) (l1 l2 : list json) (x : json) :
  forallb (other_id id) l1 = true -> has_id id x = true ->
  next_id id (l1 ++ x :: l2) = Ok (Some x).
Proof.
  intros H1 Hx. induction l1 as [|f rest IH]; cbn [app next_id].
  - unfold has_id in Hx. destruct (subscript x "id"); [|discriminate].
    now rewrite Hx.
  - cbn [forallb] in H1. apply andb_prop in H1 as [Hf Hrest].
    unfold other_id in Hf. destruct (subscript f "id"); [|discriminate].
    apply negb_true_iff in Hf. rewrite Hf. exact (IH Hrest).
Qed.

Lemma has_id_truthy (id : Z) (x : json) : has_id id x = true -> truthy x = true.
Proof.
  intros H. destruct (has_id_object _ _ H) as (kv & v & -> & Ha & _).
  destruct kv; [discriminate Ha|reflexivity].
Qed.

(** ** Removal from an arbitrary array *)



Lemma del_loop_others (id : Z) (filiais : json) (i : nat) (l : list json) :
  forallb (other_id id) l = true -> del_loop id filiais i l = Ok None.
Proof.
  revert i. induction l as [|f rest IH]; intros i H; [reflexivity|].
  cbn [forallb] in H. apply andb_prop in H as [Hf Hrest].
  cbn [del_loop]. unfold other_id in Hf.
  destruct (subscript f "id"); [|discriminate].
  apply negb_true_iff in Hf. rewrite Hf. exact (IH (S i) Hrest).
Qed.


(** ** Iteration *)

(** Only an array has objects as its elements: a [for] loop over an object
    goes through its keys, over a string through its characters. *)
Lemma py_iter_array (v : json) (elems : list json) (x : json)
    (kv : list (string * json)) :
  py_iter v = Ok elems -> In x elems -> x = JObj kv -> v = JArr elems.
Proof.
  destruct v as [| | |str|l|kv0]; cbn [py_iter]; try discriminate;
    intros H Hin ->; injection H as <-.
  - exfalso. induction str as [|c str IH]; cbn [chars] in Hin;
      [destruct Hin|].
    destruct Hin as [H|H]; [discriminate H|exact (IH H)].
  - reflexivity.
  - exfalso. apply in_map_iff in Hin as (p & Hp & _). discriminate Hp.
Qed.

(** What can be iterated and has nothing but objects in it: an array of
    objects, or something empty. *)
Lemma py_iter_objects (P : json -> bool) (v : json) (elems : list json) :
  (forall x, P x = true -> exists kv, x = JObj kv) ->
  py_iter v = Ok elems -> forallb P elems = true ->
  v = JArr elems \/ (elems = [] /\ (v = JObj [] \/ v = JStr EmptyString)).
Proof.
  intros HP Hi Hall. destruct elems as [|x rest].
  - destruct v as [| | |str|l|kv]; cbn [py_iter] in Hi; try discriminate Hi;
      injection Hi as Hi.
    + destruct str; [|discriminate Hi]. right. now split; [|right].
    + left. now subst.
    + destruct kv; [|discriminate Hi]. right. now split; [|left].
  - left. cbn [forallb] in Hall. apply andb_prop in Hall as [Hx _].
    destruct (HP x Hx) as [kv ->].
    exact (py_iter_array v _ _ kv Hi (or_introl eq_refl) eq_refl).
Qed.

Lemma other_id_to_json (id : Z) (r : filial) :
  other_id id (to_json r) = negb (Z.eqb (filial_id r) id).
Proof. reflexivity. Qed.

Lemma other_id_is_object (id : Z) (x : json) :
  other_id id x = true -> exists kv, x = JObj kv.
Proof.
  intros H. destruct (other_id_object _ _ H) as (kv & _ & -> & _).
  now exists kv.
Qed.

(** ** The operations on a file that holds an array *)

Lemma get_filial_array_found (id : Z) (l1 l2 : list json) (x : json)
    (s : fs) :
  file s = Some (Document (JArr (l1 ++ x :: l2))) ->
  forallb (other_id id) l1 = true -> has_id id x = true ->
  get_filial id s
  = (match sem_id x with
     | Ok d => (OPERACAO_REALIZADA_COM_SUCESSO, Some d)
     | Raise _ => (ERRO_DESCONHECIDO, None)
     end, log OpenRead s).
Proof.
  destruct s as [f w tr m]. cbn [file]. intros -> H1 Hx. run.
  rewrite (next_id_found id l1 l2 x H1 Hx). simpl.
  rewrite (has_id_truthy id x Hx).
  destruct (has_id_object _ _ Hx) as (kv & v & -> & _ & _).
  unfold sem_id, subscript.
  destruct (assoc "nome" kv); [|reflexivity].
  now destruct (assoc "bairro" kv).
Qed.


Lemma add_filial_array_new (id : Z) (n b : string) (l : list json) (s : fs) :
  file s = Some (Document (JArr l)) ->
  forallb (other_id id) l = true ->
  add_filial id n b s
  = if writable s
    then if encodable (max_digits s) (JArr (l ++ [new_filial id n b]))
         then (OPERACAO_REALIZADA_COM_SUCESSO,
               overwritten (Document (JArr (l ++ [new_filial id n b])))
                 (log OpenRead s))
         else (ERRO_DESCONHECIDO, overwritten Malformed (log OpenRead s))
    else (ERRO_DESCONHECIDO, log OpenWrite (log OpenRead s)).
Proof.
  destruct s as [f w tr m]. cbn [file writable max_digits]. intros -> H. run.
  rewrite (any_id_others id l H). destruct w; [|reflexivity]. simpl.
  now destruct (encodable m (JArr (l ++ [new_filial id n b]))).
Qed.



Lemma next_id_inv (id : Z) (l : list json) (r : option json) :
  next_id id l = Ok r ->
  match r with
  | Some x => has_id id x = true
  | None => forallb (other_id id) l = true
  end.
Proof.
  revert r. induction l as [|f rest IH]; intros r H.
  - injection H as <-. reflexivity.
  - cbn [next_id] in H. destruct (subscript f "id") as [v|e] eqn:Es;
      [|discriminate H].
    destruct (py_eq v (JInt id)) eqn:Ev.
    + injection H as <-. unfold has_id. now rewrite Es.
    + specialize (IH r H). destruct r; [exact IH|].
      cbn [forallb]. unfold other_id at 1. now rewrite Es, Ev.
Qed.

(** * Arrays of any records *)

(** X1. On a file that [json.load] decodes to an array, [get_filial id]
    answers from the first element whose id equals [id], the elements before
    it being objects with other ids: the keys of that element may come in
    any order and with others beside them, and what follows it in the
    array, once decoded, is not looked at.
    The status is 0 with [{nome, bairro}] when the element has both keys,
    and the unknown-error status 34 with no record when one is missing. *)
Theorem get_first_match (id : Z) (l1 l2 : list json) (x : json) (s : fs) :
  file s = Some (Document (JArr (l1 ++ x :: l2))) ->
  forallb (other_id id) l1 = true ->
  has_id id x = true ->
  get_filial id s
  = (match subscript x "nome", subscript x "bairro" with
     | Ok vn, Ok vb =>
         (OPERACAO_REALIZADA_COM_SUCESSO,
          Some (JObj [("nome", vn); ("bairro", vb)]))
     | _, _ => (ERRO_DESCONHECIDO, None)
     end, log OpenRead s).
Proof.
  intros Hf H1 Hx. rewrite (get_filial_array_found id l1 l2 x s Hf H1 Hx).
  unfold sem_id. destruct (subscript x "nome"); [|reflexivity].
  now destruct (subscript x "bairro").
Qed.

Lemma get_first_match_witness :
  let l1 := [JObj [("nome", JStr "Centro"); ("id", JInt 1);
                   ("bairro", JStr "Tijuca")]] in
  let x := JObj [("bairro", JStr "Leblon"); ("cep", JInt 22430);
                 ("id", JInt 2); ("nome", JStr "Sul")] in
  let l2 := [JNull; JObj [("id", JInt 2)]] in
  let s := holding (Document (JArr (l1 ++ x :: l2))) false in
  file s = Some (Document (JArr (l1 ++ x :: l2)))
  /\ forallb (other_id 2) l1 = true
  /\ has_id 2 x = true
  /\ get_filial 2 s
     = ((0, Some (JObj [("nome", JStr "Sul"); ("bairro", JStr "Leblon")])),
        log OpenRead s).
Proof.
  intros l1 x l2 s.
  split; [reflexivity|]. split; [reflexivity|]. split; [reflexivity|].
  exact (get_first_match 2 l1 l2 x s eq_refl eq_refl eq_refl).
Defined.

(** X2. [get_filial id] returns the branch-not-found status 33 in these
    cases and no other: [json.load] decodes the file, and what it gives is
    an array whose elements are all objects with an id other than [id] (the
    empty array among them), or an empty object or an empty string, over
    which the scan finds nothing to go through.  A file that is not decoded
    never gives 33. *)
Theorem get_not_found_iff (id : Z) (s : fs) :
  fst (fst (get_filial id s)) = FILIAL_NAO_ENCONTRADA
  <-> exists v, file s = Some (Document v)
                /\ ((exists l, v = JArr l /\ forallb (other_id id) l = true)
                    \/ v = JObj [] \/ v = JStr EmptyString).
Proof.
  split.
  - destruct s as [[[|o ov|v]|] w tr m]; run; try discriminate;
      [destruct o; discriminate|].
    destruct (py_iter v) as [elems|e] eqn:Hi; simpl;
      [|destruct e; discriminate].
    destruct (next_id id elems) as [[x|]|e] eqn:Hn; simpl;
      [| |destruct e; discriminate].
    + pose proof (next_id_inv _ _ _ Hn) as Hx. cbn in Hx.
      rewrite (has_id_truthy id x Hx).
      destruct (sem_id x) as [d|e]; simpl; [discriminate|].
      destruct e; discriminate.
    + intros _. exists v. split; [reflexivity|].
      pose proof (next_id_inv _ _ _ Hn) as Hall. cbn in Hall.
      destruct (py_iter_objects _ v elems (other_id_is_object id) Hi Hall)
        as [->|[_ [->| ->]]];
        [left; now exists elems|now right; left|now right; right].
  - intros (v & Hf & [(l & -> & Hall)|[->| ->]]);
      destruct s as [f w tr m]; cbn [file] in Hf; subst f; run;
      [now rewrite (next_id_others id l Hall)|reflexivity|reflexivity].
Qed.

Lemma get_not_found_iff_witness :
  let s := holding (Document (JArr [JObj [("id", JInt 1)]])) true in
  (exists v, file s = Some (Document v)
             /\ ((exists l, v = JArr l /\ forallb (other_id 2) l = true)
                 \/ v = JObj [] \/ v = JStr EmptyString))
  /\ fst (fst (get_filial 2 s)) = 33.
Proof.
  intros s.
  assert (H : exists v, file s = Some (Document v)
                        /\ ((exists l, v = JArr l
                                       /\ forallb (other_id 2) l = true)
                            \/ v = JObj [] \/ v = JStr EmptyString)).
  { exists (JArr [JObj [("id", JInt 1)]]). split; [reflexivity|].
    left. now exists [JObj [("id", JInt 1)]]. }
  split; [exact H|].
  exact (proj2 (get_not_found_iff 2 s) H).
Defined.





Lemma has_fields_is_object (x : json) :
  has_fields x = true -> exists kv, x = JObj kv.
Proof.
  unfold has_fields, sem_id, subscript.
  destruct x as [| | | | |kv]; try discriminate. intros _. now exists kv.
Qed.

Lemma todas_all (l : list json) :
  forallb has_fields l = true -> todas l = Ok (map view l).
Proof.
  induction l as [|f rest IH]; [reflexivity|].
  cbn [forallb todas map]. intros H. apply andb_prop in H as [Hf Hrest].
  rewrite (IH Hrest). unfold has_fields in Hf. unfold view.
  now destruct (sem_id f).
Qed.

Lemma todas_some_bad (l : list json) :
  forallb has_fields l = false -> exists e, todas l = Raise e.
Proof.
  induction l as [|f rest IH]; [discriminate|].
  cbn [forallb todas]. unfold has_fields at 1.
  destruct (sem_id f) as [d|e]; [|intros _; now exists e].
  cbn [andb]. intros H. destruct (IH H) as [e ->]. now exists e.
Qed.

Lemma todas_exn (l : list json) (e : exn) :
  todas l = Raise e -> e = TypeError \/ e = KeyError.
Proof.
  induction l as [|f rest IH]; [discriminate|].
  cbn [todas]. destruct (sem_id f) as [d|e'] eqn:Es.
  - destruct (todas rest) as [ds|e'']; [discriminate|].
    intros H. injection H as <-. now apply IH.
  - intros H. injection H as <-. revert Es. unfold sem_id, subscript.
    destruct f as [| | | | |kv]; try (intros H; injection H as <-; now left).
    destruct (assoc "nome" kv);
      [|intros H; injection H as <-; now right].
    destruct (assoc "bairro" kv); [discriminate|].
    intros H; injection H as <-; now right.
Qed.

Lemma todas_inv (l ds : list json) :
  todas l = Ok ds -> forallb has_fields l = true.
Proof.
  destruct (forallb has_fields l) eqn:E; [reflexivity|].
  destruct (todas_some_bad l E) as [e ->]. discriminate.
Qed.

(** The two shapes of what [get_filial] returns. *)
Lemma get_filial_shape (id : Z) (s : fs) :
  (exists vn vb,
      fst (get_filial id s)
      = (OPERACAO_REALIZADA_COM_SUCESSO,
         Some (JObj [("nome", vn); ("bairro", vb)])))
  \/ (exists st, st <> OPERACAO_REALIZADA_COM_SUCESSO
                 /\ fst (get_filial id s) = (st, None)).
Proof.
  destruct s as [f w tr m]. unfold get_filial, sem_id. run_all;
    first [ left; do 2 eexists; reflexivity
          | right; eexists; split; [|reflexivity]; discriminate ].
Qed.

(** The two shapes of what [get_filiais] returns. *)
Lemma get_filiais_shape (s : fs) :
  (exists ds, fst (get_filiais s) = (OPERACAO_REALIZADA_COM_SUCESSO, ds))
  \/ (exists st, st <> OPERACAO_REALIZADA_COM_SUCESSO
                 /\ fst (get_filiais s) = (st, [])).
Proof.
  destruct s as [f w tr m]. run_all;
    first [ left; eexists; reflexivity
          | right; eexists; split; [|reflexivity]; discriminate ].
Qed.

(** * Every state of the file *)



(** X16. A create that fails in [json.dump] loses the store: on a writable
    file decoded to an array of objects with other ids, when the array with
    the new record holds an integer that [json.dump] cannot write (the new
    id, for one), [add_filial] returns the unknown-error status 34 and
    leaves the file without a JSON text; the lookups that follow return the
    invalid-format status 31, for every id. *)
Theorem failed_dump_loses_the_store (id j : Z) (n b : string)
    (l : list json) (s : fs) :
  file s = Some (Document (JArr l)) ->
  forallb (other_id id) l = true ->
  writable s = true ->
  encodable (max_digits s)
    (JArr (l ++ [JObj [("id", JInt id); ("nome", JStr n);
                       ("bairro", JStr b)]]))
  = false ->
  add_filial id n b s
  = (ERRO_DESCONHECIDO, overwritten Malformed (log OpenRead s))
  /\ fst (get_filiais (snd (add_filial id n b s)))
     = (ARQUIVO_EM_FORMATO_INVALIDO, [])
  /\ fst (get_filial j (snd (add_filial id n b s)))
     = (ARQUIVO_EM_FORMATO_INVALIDO, None).
Proof.
  intros Hf Hall Hw He.
  rewrite (add_filial_array_new id n b l s Hf Hall), Hw.
  unfold new_filial. rewrite He. repeat split.
Qed.

Lemma failed_dump_loses_the_store_witness :
  file (disk [mkFilial 1 "Centro" "Tijuca"] true)
  = Some (Document (JArr (map to_json [mkFilial 1 "Centro" "Tijuca"])))
  /\ forallb (other_id (10 ^ 5000))
       (map to_json [mkFilial 1 "Centro" "Tijuca"]) = true
  /\ writable (disk [mkFilial 1 "Centro" "Tijuca"] true) = true
  /\ encodable (max_digits (disk [mkFilial 1 "Centro" "Tijuca"] true))
       (JArr (map to_json [mkFilial 1 "Centro" "Tijuca"]
              ++ [JObj [("id", JInt (10 ^ 5000)); ("nome", JStr "Sul");
                        ("bairro", JStr "Leblon")]]))
     = false
  /\ add_filial (10 ^ 5000) "Sul" "Leblon"
       (disk [mkFilial 1 "Centro" "Tijuca"] true)
     = (34, overwritten Malformed
              (log OpenRead (disk [mkFilial 1 "Centro" "Tijuca"] true)))
  /\ fst (get_filiais
            (snd (add_filial (10 ^ 5000) "Sul" "Leblon"
                    (disk [mkFilial 1 "Centro" "Tijuca"] true))))
     = (31, [])
  /\ fst (get_filial 1
            (snd (add_filial (10 ^ 5000) "Sul" "Leblon"
                    (disk [mkFilial 1 "Centro" "Tijuca"] true))))
     = (31, None).
Proof.
  destruct five_thousand_digits as [Hlong Hlt].
  revert Hlt Hlong. generalize (10 ^ 5000). intros big Hlt Hlong.
  assert (Hall : forallb (other_id big)
                   (map to_json [mkFilial 1 "Centro" "Tijuca"]) = true).
  { cbn [map forallb]. rewrite other_id_to_json. cbn [filial_id].
    rewrite (proj2 (Z.eqb_neq 1 big)); [reflexivity|].
    intros E. rewrite <- E in Hlt. exact (Z.lt_irrefl _ Hlt). }
  assert (He : encodable
                 (max_digits (disk [mkFilial 1 "Centro" "Tijuca"] true))
                 (JArr (map to_json [mkFilial 1 "Centro" "Tijuca"]
                        ++ [JObj [("id", JInt big); ("nome", JStr "Sul");
                                  ("bairro", JStr "Leblon")]]))
               = false).
  { rewrite encodable_app, (encodable_arr _ [_]). cbn [forallb].
    change (JObj [("id", JInt big); ("nome", JStr "Sul");
                  ("bairro", JStr "Leblon")])
      with (new_filial big "Sul" "Leblon").
    rewrite encodable_new_filial.
    change (max_digits (disk [mkFilial 1 "Centro" "Tijuca"] true)) with 4300.
    rewrite Hlong. now rewrite andb_false_r. }
  split; [reflexivity|]. split; [exact Hall|]. split; [reflexivity|].
  split; [exact He|].
  exact (failed_dump_loses_the_store big 1 "Sul" "Leblon"
           (map to_json [mkFilial 1 "Centro" "Tijuca"])
           (disk [mkFilial 1 "Centro" "Tijuca"] true) eq_refl Hall eq_refl
           He).
Defined.

(** X6. [get_filial] and [get_filiais] only read: whatever the file holds
    and whatever they return, they open the file once, for reading, and
    leave its content and its permissions as they were. *)
Theorem lookups_only_read (id : Z) (s : fs) :
  snd (get_filial id s) = log OpenRead s
  /\ snd (get_filiais s) = log OpenRead s.
Proof.
  destruct s as [f w tr m]. split; run_all; reflexivity.
Qed.

(** X7. What comes with the status of a lookup: [get_filial] returns a
    record exactly when its status is 0, and the record is then an object
    with the two keys nome and bairro, in this order; [get_filiais] returns
    the empty list with every status other than 0. *)
Theorem lookup_payloads (id : Z) (s : fs) :
  (fst (fst (get_filial id s)) = OPERACAO_REALIZADA_COM_SUCESSO
   <-> exists vn vb,
         snd (fst (get_filial id s))
         = Some (JObj [("nome", vn); ("bairro", vb)]))
  /\ (fst (fst (get_filial id s)) <> OPERACAO_REALIZADA_COM_SUCESSO
      <-> snd (fst (get_filial id s)) = None)
  /\ (fst (fst (get_filiais s)) <> OPERACAO_REALIZADA_COM_SUCESSO ->
        snd (fst (get_filiais s)) = []).
Proof.
  split; [|split].
  - destruct (get_filial_shape id s) as [(vn & vb & ->)|(st & Hst & ->)];
      cbn [fst snd].
    + split; [intros _; now exists vn, vb|reflexivity].
    + split; [intros H; contradiction|intros (? & ? & H); discriminate H].
  - destruct (get_filial_shape id s) as [(vn & vb & ->)|(st & Hst & ->)];
      cbn [fst snd].
    + split; [intros H; now contradiction H|discriminate].
    + split; [reflexivity|intros _; exact Hst].
  - destruct (get_filiais_shape s) as [(ds & ->)|(st & Hst & ->)];
      cbn [fst snd]; [intros H; now contradiction H|reflexivity].
Qed.

Lemma lookup_payloads_witness :
  let good := holding (Document (JArr [JObj [("id", JInt 1);
                                             ("nome", JStr "Centro");
                                             ("bairro", JStr "Tijuca")]]))
                true in
  let bad := holding (Document (JArr [JObj [("id", JInt 1)]])) true in
  (fst (fst (get_filial 1 good)) = 0
   /\ exists vn vb,
        snd (fst (get_filial 1 good))
        = Some (JObj [("nome", vn); ("bairro", vb)]))
  /\ (fst (fst (get_filial 1 bad)) <> 0
      /\ snd (fst (get_filial 1 bad)) = None)
  /\ (fst (fst (get_filiais bad)) <> 0 /\ snd (fst (get_filiais bad)) = []).
Proof.
  intros good bad.
  assert (Hg : fst (fst (get_filial 1 bad)) <> 0).
  { discriminate. }
  assert (Hl : fst (fst (get_filiais bad)) <> 0).
  { discriminate. }
  split; [|split].
  - split; [reflexivity|].
    exact (proj1 (proj1 (lookup_payloads 1 good)) eq_refl).
  - split; [exact Hg|].
    exact (proj1 (proj1 (proj2 (lookup_payloads 1 bad))) Hg).
  - split; [exact Hl|].
    exact (proj2 (proj2 (lookup_payloads 1 bad)) Hl).
Defined.

(** X8. On a file that [json.load] decodes to an array, [get_filiais]
    succeeds exactly when every element is an object with the keys nome and
    bairro (an id is not asked for), and then returns one [{nome, bairro}]
    per element, in the order of the array; a single element without one of
    the keys turns the whole answer into the unknown-error status 34 with
    the empty list. *)
Theorem get_filiais_on_array (l : list json) (s : fs) :
  file s = Some (Document (JArr l)) ->
  get_filiais s
  = (if forallb has_fields l
     then (OPERACAO_REALIZADA_COM_SUCESSO, map view l)
     else (ERRO_DESCONHECIDO, []),
     log OpenRead s).
Proof.
  destruct s as [f w tr m]. cbn [file]. intros ->. run.
  destruct (forallb has_fields l) eqn:E.
  - now rewrite (todas_all l E).
  - destruct (todas_some_bad l E) as [e He]. rewrite He.
    now destruct (todas_exn l e He) as [-> | ->].
Qed.

Lemma get_filiais_on_array_witness :
  let l := [JObj [("bairro", JStr "Tijuca"); ("nome", JStr "Centro")];
            JObj [("id", JInt 2); ("nome", JStr "Sul");
                  ("bairro", JStr "Leblon")]] in
  let s := holding (Document (JArr l)) false in
  file s = Some (Document (JArr l))
  /\ get_filiais s
     = ((0, [JObj [("nome", JStr "Centro"); ("bairro", JStr "Tijuca")];
             JObj [("nome", JStr "Sul"); ("bairro", JStr "Leblon")]]),
        log OpenRead s).
Proof.
  intros l s. split; [reflexivity|].
  exact (get_filiais_on_array l s eq_refl).
Defined.

(** * Sequences of calls on a store *)























(** X15. [get_filiais] returns the success status 0 in these cases and no
    other: [json.load] decodes the file, and what it gives is an array whose
    elements are all objects with the keys nome and bairro (the empty array
    among them), or an empty object or an empty string, which it lists as
    no record at all.  A file that is not decoded never gives 0. *)
Theorem get_filiais_succeeds_iff (s : fs) :
  fst (fst (get_filiais s)) = OPERACAO_REALIZADA_COM_SUCESSO
  <-> exists v, file s = Some (Document v)
                /\ ((exists l, v = JArr l /\ forallb has_fields l = true)
                    \/ v = JObj [] \/ v = JStr EmptyString).
Proof.
  split.
  - destruct s as [[[|o ov|v]|] w tr m]; run; try discriminate;
      [destruct o; discriminate|].
    destruct (py_iter v) as [elems|e] eqn:Hi; simpl;
      [|destruct e; discriminate].
    destruct (todas elems) as [ds|e] eqn:Ht; simpl;
      [|destruct e; discriminate].
    intros _. exists v. split; [reflexivity|].
    pose proof (todas_inv _ _ Ht) as Hall.
    destruct (py_iter_objects _ v elems has_fields_is_object Hi Hall)
      as [->|[_ [->| ->]]];
      [left; now exists elems|now right; left|now right; right].
  - intros (v & Hf & [(l & -> & Hall)|[->| ->]]);
      destruct s as [f w tr m]; cbn [file] in Hf; subst f; run;
      [now rewrite (todas_all l Hall)|reflexivity|reflexivity].
Qed.

Lemma get_filiais_succeeds_iff_witness :
  let s := holding (Document (JObj [])) true in
  (exists v, file s = Some (Document v)
             /\ ((exists l, v = JArr l /\ forallb has_fields l = true)
                 \/ v = JObj [] \/ v = JStr EmptyString))
  /\ fst (fst (get_filiais s)) = 0.
Proof.
  intros s.
  assert (H : exists v, file s = Some (Document v)
                        /\ ((exists l, v = JArr l
                                       /\ forallb has_fields l = true)
                            \/ v = JObj [] \/ v = JStr EmptyString)).
  { exists (JObj []). split; [reflexivity|]. right. now left. }
  split; [exact H|].
  exact (proj2 (get_filiais_succeeds_iff s) H).
Defined.
